(** * Employee management service: request handlers and guards

    A shallow embedding of the two Express servers of the repository:

    - [Server]     : [src/server.js], the open CRUD service;
    - [AuthServer] : the session/role variant ([src/unnamed/part_000]).

    The database engine, the [pg] driver, [bcrypt] and [passport] are
    collaborators of the code, not part of it.  What the handlers rely on is
    collected in the class [Externals] and in the [Pool] record; the handlers
    themselves are transcribed statement by statement.

    A handler is taken from the point where Express calls it: the security
    headers, the JSON body parser, the rate limiter and, in the session
    variant, the session middleware have run, and what they leave on the
    request is the [Request] record. *)

From Stdlib Require Import ZArith List String Ascii Bool Lia DecimalString.
From Stdlib Require DecimalPos.
Import ListNotations.

Set Warnings "-register-all".
Open Scope string_scope.
Open Scope Z_scope.

(** ** JavaScript values *)

(** The values that travel through the handlers: parsed JSON bodies, rows
    handed back by the driver, response bodies.  A number is kept as the
    integer it denotes; the handlers only test numbers for truthiness and
    strict equality.  An object is the ordered list of its own properties. *)
Inductive JsVal : Type :=
| JUndefined
| JNull
| JBool (b : bool)
| JNum (n : Z)
| JStr (s : string)
| JObj (fields : list (string * JsVal))
| JArr (items : list JsVal).

(** A row of [public.employees] as the driver returns it: column name to
    value, in column order. *)
Definition Row := list (string * JsVal).

(** Property access [o.k]: the first binding of [k], [undefined] without one. *)
Fixpoint prop (k : string) (o : Row) : JsVal :=
  match o with
  | [] => JUndefined
  | (k', v) :: rest => if String.eqb k k' then v else prop k rest
  end.

(** [k in o] for own properties. *)
Fixpoint has_prop (k : string) (o : Row) : bool :=
  match o with
  | [] => false
  | (k', _) :: rest => String.eqb k k' || has_prop k rest
  end.

(** Assignment [o.k = v]: overwrite in place, or append a new property. *)
Fixpoint set_prop (k : string) (v : JsVal) (o : Row) : Row :=
  match o with
  | [] => [(k, v)]
  | (k', v') :: rest =>
      if String.eqb k k' then (k, v) :: rest else (k', v') :: set_prop k v rest
  end.

(** ToBoolean: the test behind [!x] and [x && y]. *)
Definition truthy (v : JsVal) : bool :=
  match v with
  | JUndefined | JNull => false
  | JBool b => b
  | JNum n => negb (n =? 0)
  | JStr s => negb (String.eqb s "")
  | JObj _ | JArr _ => true
  end.

(** [v === "s"] against a string literal. *)
Definition strict_eq_str (v : JsVal) (s : string) : bool :=
  match v with
  | JStr s' => String.eqb s' s
  | _ => false
  end.

(** [v === n] against a number. *)
Definition strict_eq_num (v : JsVal) (n : Z) : bool :=
  match v with
  | JNum m => m =? n
  | _ => false
  end.

(** ** parseInt and isNaN *)

(** Characters are taken in the Latin-1 range; the white space of
    [StrWhiteSpaceChar] in that range is TAB, LF, VT, FF, CR, SP and NBSP. *)
Definition is_space (c : ascii) : bool :=
  let n := Z.of_nat (nat_of_ascii c) in
  ((9 <=? n) && (n <=? 13)) || (n =? 32) || (n =? 160).

Fixpoint trim_left (s : string) : string :=
  match s with
  | String c rest => if is_space c then trim_left rest else s
  | EmptyString => s
  end.

(** Value of a character as a digit in [radix], if it is one. *)
Definition digit_val (radix : Z) (c : ascii) : option Z :=
  let n := Z.of_nat (nat_of_ascii c) in
  let d :=
    if (48 <=? n) && (n <=? 57) then n - 48
    else if (97 <=? n) && (n <=? 122) then n - 87
    else if (65 <=? n) && (n <=? 90) then n - 55
    else radix in
  if d <? radix then Some d else None.

(** The longest prefix of radix digits, read as a number; [None] when that
    prefix is empty.  [acc] is the value read so far. *)
Fixpoint digits (radix : Z) (s : string) (acc : option Z) : option Z :=
  match s with
  | String c rest =>
      match digit_val radix c with
      | Some d =>
          digits radix rest
            (Some (radix * (match acc with Some a => a | None => 0 end) + d))
      | None => acc
      end
  | EmptyString => acc
  end.

(** [parseInt(s)] with no radix argument: skip leading white space, read an
    optional sign, switch to radix 16 after [0x]/[0X], read the longest prefix
    of digits.  [None] stands for [NaN].  The result is the mathematical
    integer (both zeros are [0]). *)
Definition parseInt (s : string) : option Z :=
  let s1 := trim_left s in
  let '(sign, s2) :=
    match s1 with
    | String "-" rest => (-1, rest)
    | String "+" rest => (1, rest)
    | _ => (1, s1)
    end in
  let '(radix, s3) :=
    match s2 with
    | String "0" (String "x" rest) => (16, rest)
    | String "0" (String "X" rest) => (16, rest)
    | _ => (10, s2)
    end in
  option_map (Z.mul sign) (digits radix s3 None).

Definition isNaN (n : option Z) : bool :=
  match n with
  | None => true
  | Some _ => false
  end.

(** Number to string, as a template literal interpolates it. *)
Definition num_to_string (n : Z) : string :=
  NilZero.string_of_int (Z.to_int n).

(** ** The collaborators *)

(** What the code consumes from PostgreSQL, the [pg] driver and [bcrypt]:
    - [sql_eq c v]: the engine's verdict on [column = $n] for a stored value
      [c] and a bound parameter [v];
    - [sql_text v]: the value a text column gives back after [v] was bound
      to it;
    - [bcrypt_hash pw rounds]: the digest [bcrypt.hash] resolves to. *)
Class Externals : Type := {
  sql_eq : JsVal -> JsVal -> bool;
  sql_text : JsVal -> JsVal;
  bcrypt_hash : string -> Z -> string
}.

(** The statements the two servers send through [pool.query]. *)
Inductive Sql : Type :=
| SelectAll
| SelectById (id : JsVal)
| SelectByEmployeeId (employeeId : JsVal)
| InsertEmployee (name email department : JsVal)
| UpdateEmployee (name email department id : JsVal)
| DeleteEmployee (id : JsVal)
| UpdatePassword (digest employeeId : JsVal).

(** The pool seen from a handler: the content of [public.employees], the next
    value of the id sequence, the values the engine fills into the columns an
    INSERT does not list, and the statements on which [pool.query] rejects
    (constraint violation, type error, lost connection). *)
Record Pool : Type := mkPool {
  table : list Row;
  serial : Z;
  defaults : Row;
  throws : Sql -> bool
}.

Definition with_table (p : Pool) (t : list Row) : Pool :=
  {| table := t; serial := serial p; defaults := defaults p; throws := throws p |}.

(** [rows[0]] of a result set. *)
Definition first_row (rows : list Row) : JsVal :=
  match rows with
  | r :: _ => JObj r
  | [] => JUndefined
  end.

Section Queries.
Context {E : Externals}.

(** [WHERE col = $n]. *)
Definition matches (col : string) (param : JsVal) (r : Row) : bool :=
  sql_eq (prop col r) param.

(** [SET name = $1, email = $2, department = $3]. *)
Definition set_employee (name email department : JsVal) (r : Row) : Row :=
  set_prop "department" (sql_text department)
    (set_prop "email" (sql_text email)
       (set_prop "name" (sql_text name) r)).

(** The row an INSERT creates: generated id, the three bound values, the
    other columns at their defaults. *)
Definition new_employee (p : Pool) (name email department : JsVal) : Row :=
  ("id", JNum (serial p)) :: ("name", sql_text name) ::
  ("email", sql_text email) :: ("department", sql_text department) ::
  defaults p.

(** Effect of a statement the engine accepts: the pool afterwards and the
    rows returned ([SELECT *] or [RETURNING *]; none for the password
    update, which has no RETURNING clause). *)
Definition run (p : Pool) (q : Sql) : Pool * list Row :=
  match q with
  | SelectAll => (p, table p)
  | SelectById id => (p, filter (matches "id" id) (table p))
  | SelectByEmployeeId eid => (p, filter (matches "employee_id" eid) (table p))
  | InsertEmployee n e d =>
      let r := new_employee p n e d in
      ({| table := table p ++ [r]; serial := serial p + 1;
          defaults := defaults p; throws := throws p |}, [r])
  | UpdateEmployee n e d id =>
      let upd r := if matches "id" id r then set_employee n e d r else r in
      (with_table p (map upd (table p)),
       map (set_employee n e d) (filter (matches "id" id) (table p)))
  | DeleteEmployee id =>
      (with_table p (filter (fun r => negb (matches "id" id r)) (table p)),
       filter (matches "id" id) (table p))
  | UpdatePassword digest eid =>
      let upd r :=
        if matches "employee_id" eid r then set_prop "password" digest r else r in
      (with_table p (map upd (table p)), [])
  end.

(** [await pool.query(...)]: [None] when the promise rejects. *)
Definition query (p : Pool) (q : Sql) : option (Pool * list Row) :=
  if throws p q then None else Some (run p q).
End Queries.

(** ** Requests and responses *)

(** The parts of an Express request the handlers read: the [:id] path
    parameter, the parsed JSON body, and what passport attached
    ([req.isAuthenticated()], [req.user]). *)
Record Request : Type := mkRequest {
  params_id : string;
  body : Row;
  isAuthenticated : bool;
  user : option Row
}.

Inductive Payload : Type :=
| Json (v : JsVal)
| Text (s : string).

Record Response : Type := mkResponse {
  status : Z;
  payload : Payload
}.

(** [res.status(code).json(v)]; [res.json(v)] is [json 200 v]. *)
Definition json (code : Z) (v : JsVal) : Response :=
  {| status := code; payload := Json v |}.

(** [res.status(code).send(text)]. *)
Definition send (code : Z) (text : string) : Response :=
  {| status := code; payload := Text text |}.

(** [{ error: msg }]. *)
Definition error_body (msg : string) : JsVal := JObj [("error", JStr msg)].

(** [{ message: msg }]. *)
Definition message_body (msg : string) : JsVal := JObj [("message", JStr msg)].

(** ** [src/server.js]: the open CRUD service *)

Module Server.
Section Handlers.
Context {E : Externals}.

(** [GET /employees]. *)
Definition getAllEmployees (p : Pool) (req : Request) : Pool * Response :=
  match query p SelectAll with
  | Some (p', rows) => (p', json 200 (JArr (map JObj rows)))
  | None => (p, json 500 (error_body "Failed to fetch employees"))
  end.

(** [GET /employees/:id]. *)
Definition getEmployeeById (p : Pool) (req : Request) : Pool * Response :=
  match parseInt (params_id req) with
  | None => (p, json 400 (error_body "Invalid employee ID"))
  | Some employeeId =>
      match query p (SelectById (JNum employeeId)) with
      | Some (p', []) => (p', json 404 (error_body "Employee not found"))
      | Some (p', r :: _) => (p', json 200 (JObj r))
      | None => (p, json 500 (error_body "Failed to fetch employee"))
      end
  end.

(** [!name || !email || !department]. *)
Definition missing_fields (name email department : JsVal) : bool :=
  negb (truthy name) || negb (truthy email) || negb (truthy department).

(** [POST /employees]. *)
Definition post_employees (p : Pool) (req : Request) : Pool * Response :=
  let name := prop "name" (body req) in
  let email := prop "email" (body req) in
  let department := prop "department" (body req) in
  if missing_fields name email department then
    (p, json 400 (error_body "Missing required fields"))
  else
    match query p (InsertEmployee name email department) with
    | Some (p', rows) => (p', json 201 (first_row rows))
    | None => (p, json 500 (error_body "Failed to add employee"))
    end.

(** [PUT /employees/:id]. *)
Definition put_employees_id (p : Pool) (req : Request) : Pool * Response :=
  match parseInt (params_id req) with
  | None => (p, json 400 (error_body "Invalid ID format"))
  | Some id =>
      let name := prop "name" (body req) in
      let email := prop "email" (body req) in
      let department := prop "department" (body req) in
      if missing_fields name email department then
        (p, json 400 (error_body "Missing required fields"))
      else
        match query p (UpdateEmployee name email department (JNum id)) with
        | Some (p', []) => (p', json 404 (error_body "Employee not found"))
        | Some (p', r :: _) => (p', json 200 (JObj r))
        | None => (p, json 500 (error_body "Failed to update employee"))
        end
  end.

(** [{ message: `Employee with ID ${id} has been deleted successfully`,
       deletedEmployee: rows[0] }]. *)
Definition deleted_body (id : Z) (r : Row) : JsVal :=
  JObj [("message",
         JStr ("Employee with ID " ++ num_to_string id ++
               " has been deleted successfully"));
        ("deletedEmployee", JObj r)].

(** [DELETE /employees/:id]. *)
Definition delete_employees_id (p : Pool) (req : Request) : Pool * Response :=
  match parseInt (params_id req) with
  | None => (p, json 400 (error_body "Invalid ID format"))
  | Some id =>
      match query p (DeleteEmployee (JNum id)) with
      | Some (p', []) => (p', json 404 (error_body "Employee not found"))
      | Some (p', r :: _) => (p', json 200 (deleted_body id r))
      | None => (p, json 500 (error_body "Failed to delete employee"))
      end
  end.

End Handlers.
End Server.

(** ** [src/unnamed/part_000]: the session and role variant *)

Module AuthServer.

(** How a request leaves the middleware chain: a response was sent, the
    client was redirected, an error was handed to [next(err)], or nothing
    was ever sent. *)
Inductive Outcome : Type :=
| Sent (r : Response)
| Redirected (url : string)
| NextError
| NoReply.

(** What the local strategy reports through [done]: [done(err)],
    [done(null, false)], [done(null, user)], or no call at all. *)
Inductive Verdict : Type :=
| VError
| VFail
| VUser (u : Row)
| VSilent.

(** [ensureAuthenticated]: [None] is [next()]. *)
Definition ensureAuthenticated (req : Request) : option Outcome :=
  if isAuthenticated req then None else Some (Redirected "/login").

(** [req.user && req.user.role === role]. *)
Definition user_has_role (req : Request) (role : string) : bool :=
  match user req with
  | Some u => strict_eq_str (prop "role" u) role
  | None => false
  end.

(** [checkRole(role)]: [None] is [next()]. *)
Definition checkRole (role : string) (req : Request) : option Outcome :=
  if isAuthenticated req && user_has_role req role then None
  else Some (Sent (send 403 "Forbidden")).

(** [app.METHOD(path, guard, handler)]. *)
Definition guarded (guard : Request -> option Outcome)
    (handler : Pool -> Request -> Pool * Outcome)
    (p : Pool) (req : Request) : Pool * Outcome :=
  match guard req with
  | None => handler p req
  | Some o => (p, o)
  end.

(** [passport.serializeUser]: the value stored in the session. *)
Definition serializeUser (u : Row) : JsVal := prop "employee_id" u.

(** [req.logIn(user, cb)]: passport's serializer chain stops at the first
    result that is truthy or [0]; with none the callback gets an error. *)
Definition logIn (u : Row) (req : Request) : option Request :=
  let id := serializeUser u in
  if truthy id || strict_eq_num id 0 then
    Some {| params_id := params_id req; body := body req;
            isAuthenticated := true; user := Some u |}
  else None.

Section Handlers.
Context {E : Externals}.

(** The verify callback of the local strategy: the lookup is awaited and the
    callback ends there (the source continues with the comment
    "Rest of the code..."), so [done] is only reached from the catch. *)
Definition localVerify (p : Pool) (employeeId password : JsVal) : Verdict :=
  match query p (SelectById employeeId) with
  | Some _ => VSilent
  | None => VError
  end.

(** [passport.authenticate('local', ...)] with [usernameField: 'employeeId']:
    passport-local fails the attempt itself when a credential is missing,
    and calls the verify callback otherwise.  Credentials are read from the
    body (the query string, its fallback, is taken to be empty). *)
Definition authenticate (p : Pool) (req : Request) : Verdict :=
  let employeeId := prop "employeeId" (body req) in
  let password := prop "password" (body req) in
  if negb (truthy employeeId) || negb (truthy password) then VFail
  else localVerify p employeeId password.

(** [passport.deserializeUser]: [None] is [done(new Error(...))]. *)
Definition deserializeUser (p : Pool) (employeeId : JsVal) : option Row :=
  match query p (SelectByEmployeeId employeeId) with
  | Some (_, r :: _) => Some r
  | Some (_, []) => None
  | None => None
  end.

(** [GET /employees], behind [checkRole('admin')]. *)
Definition get_employees : Pool -> Request -> Pool * Outcome :=
  guarded (checkRole "admin") (fun p req =>
    match query p SelectAll with
    | Some (p', rows) => (p', Sent (json 200 (JArr (map JObj rows))))
    | None => (p, Sent (json 500 (error_body "Failed to fetch employees")))
    end).

(** The two branches that answer [GET /employees/:id] with the row. *)
Definition may_read (req : Request) (employeeId : Z) : bool :=
  (isAuthenticated req &&
   (user_has_role req "admin" || user_has_role req "manager"))
  || (isAuthenticated req &&
      match user req with
      | Some u => strict_eq_num (prop "employee_id" u) employeeId
      | None => false
      end).

(** [GET /employees/:id]. *)
Definition get_employees_id (p : Pool) (req : Request) : Pool * Outcome :=
  match parseInt (params_id req) with
  | None => (p, Sent (json 400 (error_body "Invalid employee ID")))
  | Some employeeId =>
      match query p (SelectById (JNum employeeId)) with
      | Some (p', []) => (p', Sent (json 404 (error_body "Employee not found")))
      | Some (p', r :: _) =>
          if may_read req employeeId then (p', Sent (json 200 (JObj r)))
          else (p', Sent (send 403 "Forbidden"))
      | None => (p, Sent (json 500 (error_body "Failed to fetch employee")))
      end
  end.

(** [await bcrypt.hash(newPassword, 10)]: rejects unless the data is a
    string. *)
Definition hash_password (newPassword : JsVal) : option JsVal :=
  match newPassword with
  | JStr pw => Some (JStr (bcrypt_hash pw 10))
  | _ => None
  end.

(** [POST /reset-password], behind [checkRole('admin')]. *)
Definition post_reset_password : Pool -> Request -> Pool * Outcome :=
  guarded (checkRole "admin") (fun p req =>
    let employeeId := prop "employeeId" (body req) in
    let newPassword := prop "newPassword" (body req) in
    let failed := Sent (json 500 (error_body "Failed to reset password")) in
    match hash_password newPassword with
    | None => (p, failed)
    | Some hashedPassword =>
        match query p (UpdatePassword hashedPassword employeeId) with
        | Some (p', _) =>
            (p', Sent (json 200 (message_body "Password reset successfully")))
        | None => (p, failed)
        end
    end).

(** [GET /protected], behind [ensureAuthenticated]. *)
Definition get_protected : Pool -> Request -> Pool * Outcome :=
  guarded ensureAuthenticated (fun p req =>
    (p, Sent (send 200 "You are authenticated!"))).

(** The callback given to [passport.authenticate] in [POST /login]. *)
Definition login_callback (req : Request) (v : Verdict) : Outcome :=
  match v with
  | VError => NextError
  | VFail => Sent (json 401 (message_body "Authentication failed"))
  | VUser u =>
      match logIn u req with
      | None => NextError
      | Some req' =>
          Sent (json 200
                  (JObj [("message", JStr "Login successful");
                         ("user", match user req' with
                                  | Some r => JObj r
                                  | None => JUndefined
                                  end)]))
      end
  | VSilent => NoReply
  end.

(** [POST /login]. *)
Definition post_login (p : Pool) (req : Request) : Pool * Outcome :=
  (p, login_callback req (authenticate p req)).

(** [POST /employees/:id]. *)
Definition post_employees_id (p : Pool) (req : Request) : Pool * Outcome :=
  (p, Sent (send 404 "Not found")).

End Handlers.
End AuthServer.

(** ** Sample data *)

(** An engine for running the handlers on concrete inputs: integer and text
    columns compared by value, text stored as given, digests tagged with the
    bcrypt prefix. *)
Definition sample_engine : Externals :=
  {| sql_eq := fun c v =>
       match c, v with
       | JNum a, JNum b => a =? b
       | JStr a, JStr b => String.eqb a b
       | _, _ => false
       end;
     sql_text := fun v => v;
     bcrypt_hash := fun pw _ => "$2b$10$" ++ pw |}.

Definition alice : Row :=
  [("id", JNum 1); ("name", JStr "Alice"); ("email", JStr "a@x.com");
   ("department", JStr "Eng"); ("employee_id", JNum 1);
   ("role", JStr "admin"); ("password", JStr "$2b$10$alice-digest")].

Definition bob : Row :=
  [("id", JNum 2); ("name", JStr "Bob"); ("email", JStr "b@x.com");
   ("department", JStr "Ops"); ("employee_id", JNum 2);
   ("role", JStr "employee"); ("password", JStr "$2b$10$bob-digest")].

(** Two employees, every statement accepted. *)
Definition sample_pool : Pool :=
  {| table := [alice; bob]; serial := 3;
     defaults := [("employee_id", JNull); ("role", JNull); ("password", JNull)];
     throws := fun _ => false |}.

(** A request nobody is logged in for. *)
Definition anonymous (id : string) (b : Row) : Request :=
  {| params_id := id; body := b; isAuthenticated := false; user := None |}.

(** A request carrying the session of [u]. *)
Definition logged_in (u : Row) (id : string) (b : Row) : Request :=
  {| params_id := id; body := b; isAuthenticated := true; user := Some u |}.

(** A body whose three fields are all present, [name] being the empty
    string. *)
Definition blank_name_body : Row :=
  [("name", JStr ""); ("email", JStr "c@x.com"); ("department", JStr "Eng")].

(** ** Reading a response *)

(** Does a value carry a [password] property, at any depth? *)
Fixpoint has_password (v : JsVal) : bool :=
  match v with
  | JObj fields =>
      (fix in_fields (l : list (string * JsVal)) : bool :=
         match l with
         | [] => false
         | (k, x) :: rest =>
             String.eqb "password" k || has_password x || in_fields rest
         end) fields
  | JArr items =>
      (fix in_items (l : list JsVal) : bool :=
         match l with
         | [] => false
         | x :: rest => has_password x || in_items rest
         end) items
  | _ => false
  end.

Definition exposes_password (r : Response) : bool :=
  match payload r with
  | Json v => has_password v
  | Text _ => false
  end.

(** ** Auxiliary facts *)

Lemma has_prop_false_undefined (k : string) (o : Row) :
  has_prop k o = false -> prop k o = JUndefined.
Proof.
  induction o as [|[k' v] rest IH]; simpl; [reflexivity|].
  destruct (String.eqb k k'); simpl; [discriminate | exact IH].
Qed.

Lemma absent_not_truthy (k : string) (o : Row) :
  has_prop k o = false -> truthy (prop k o) = false.
Proof.
  intros H. rewrite (has_prop_false_undefined _ _ H). reflexivity.
Qed.

Lemma has_password_row (r : Row) :
  has_prop "password" r = true -> has_password (JObj r) = true.
Proof.
  induction r as [|[k v] rest IH]; [discriminate|].
  cbn [has_prop]. intros H.
  change (has_password (JObj ((k, v) :: rest)))
    with (String.eqb "password" k || has_password v || has_password (JObj rest)).
  destruct (String.eqb "password" k); [reflexivity|].
  rewrite (IH H). apply orb_true_r.
Qed.

Lemma filter_after_delete {A : Type} (f : A -> bool) (l : list A) :
  filter f (filter (fun x => negb (f x)) l) = [].
Proof.
  induction l as [|x l IH]; simpl; [reflexivity|].
  destruct (f x) eqn:Hx; simpl; [exact IH | rewrite Hx; exact IH].
Qed.

Lemma update_without_match {A : Type} (f : A -> bool) (g : A -> A) (l : list A) :
  filter f l = [] -> map (fun x => if f x then g x else x) l = l.
Proof.
  induction l as [|x l IH]; simpl; [reflexivity|].
  destruct (f x); [discriminate|].
  intros H. rewrite (IH H). reflexivity.
Qed.

Lemma filter_head_In {A : Type} (f : A -> bool) (l rest : list A) (x : A) :
  filter f l = x :: rest -> In x l.
Proof.
  intros H. assert (Hin : In x (filter f l)) by (rewrite H; left; reflexivity).
  apply filter_In in Hin. exact (proj1 Hin).
Qed.

Lemma updated_head_In {A : Type} (f : A -> bool) (g : A -> A)
    (l rest : list A) (x : A) :
  map g (filter f l) = x :: rest ->
  In x (map (fun y => if f y then g y else y) l).
Proof.
  induction l as [|y l IH]; simpl; [discriminate|].
  destruct (f y); simpl.
  - intros H. left. congruence.
  - intros H. right. exact (IH H).
Qed.

Lemma has_password_rows (rows : list Row) (r : Row) :
  In r rows -> has_password (JObj r) = true ->
  has_password (JArr (map JObj rows)) = true.
Proof.
  induction rows as [|r' rows IH]; [intros []|].
  intros Hin Hr.
  change (has_password (JArr (map JObj (r' :: rows))))
    with (has_password (JObj r') || has_password (JArr (map JObj rows))).
  destruct Hin as [->|Hin].
  - rewrite Hr. reflexivity.
  - rewrite (IH Hin Hr). apply orb_true_r.
Qed.

(** ** The role guard *)

(** C2. [checkRole(R)] lets a request through exactly when it is
    authenticated and the attached employee's role is the string [R];
    every other request is answered 403 "Forbidden".  In particular an
    authenticated admin is refused by [checkRole("manager")]. *)
Theorem C2_checkRole_exact_match (R : string) (req : Request) :
  (AuthServer.checkRole R req = None <->
     isAuthenticated req = true /\
     exists u, user req = Some u /\ prop "role" u = JStr R)
  /\ (AuthServer.checkRole R req <> None ->
      AuthServer.checkRole R req = Some (AuthServer.Sent (send 403 "Forbidden")))
  /\ (forall u, isAuthenticated req = true -> user req = Some u ->
        prop "role" u = JStr "admin" ->
        AuthServer.checkRole "manager" req
        = Some (AuthServer.Sent (send 403 "Forbidden"))).
Proof.
  unfold AuthServer.checkRole, AuthServer.user_has_role.
  split; [|split].
  - split.
    + destruct (isAuthenticated req); [|discriminate].
      destruct (user req) as [u|]; [|discriminate].
      unfold strict_eq_str.
      destruct (prop "role" u) eqn:Hrole; try discriminate.
      destruct (String.eqb s R) eqn:Hs; [|discriminate].
      apply String.eqb_eq in Hs. subst s.
      intros _. split; [reflexivity|]. exists u. split; [reflexivity | exact Hrole].
    + intros [Ha [u [Hu Hrole]]]. rewrite Ha, Hu, Hrole.
      unfold strict_eq_str. rewrite String.eqb_refl. reflexivity.
  - destruct (isAuthenticated req && _); [intros H; now elim H | reflexivity].
  - intros u Ha Hu Hrole. rewrite Ha, Hu, Hrole. reflexivity.
Qed.

(** C2 at a concrete request: Alice, an admin, is let through by
    [checkRole("admin")] and refused by [checkRole("manager")]. *)
Lemma C2_checkRole_exact_match_witness :
  AuthServer.checkRole "admin" (logged_in alice "" []) = None /\
  AuthServer.checkRole "manager" (logged_in alice "" [])
  = Some (AuthServer.Sent (send 403 "Forbidden")).
Proof.
  pose proof (C2_checkRole_exact_match "admin" (logged_in alice "" [])) as [Hiff _].
  pose proof (C2_checkRole_exact_match "manager" (logged_in alice "" [])) as [_ [_ Hadm]].
  split.
  - apply Hiff. split; [reflexivity|]. exists alice. split; reflexivity.
  - apply (Hadm alice); reflexivity.
Defined.

(** ** Identifier parsing *)

(** C10. In the three [:id] handlers the path parameter is refused as an
    invalid id exactly when [parseInt] gives [NaN]; a parameter is only
    looked at through [parseInt], so ["12abc"] is served as id 12. *)
Theorem C10_id_parsing_numeric_prefix {E : Externals} (p : Pool) (req : Request) :
  (status (snd (Server.getEmployeeById p req)) = 400 <->
     isNaN (parseInt (params_id req)) = true)
  /\ (snd (Server.put_employees_id p req) = json 400 (error_body "Invalid ID format") <->
     isNaN (parseInt (params_id req)) = true)
  /\ (status (snd (Server.delete_employees_id p req)) = 400 <->
     isNaN (parseInt (params_id req)) = true)
  /\ parseInt "12abc" = Some 12
  /\ parseInt "12" = Some 12
  /\ (forall req', parseInt (params_id req') = parseInt (params_id req) ->
        body req' = body req ->
        Server.getEmployeeById p req' = Server.getEmployeeById p req /\
        Server.put_employees_id p req' = Server.put_employees_id p req /\
        Server.delete_employees_id p req' = Server.delete_employees_id p req).
Proof.
  repeat split.
  - unfold Server.getEmployeeById.
    destruct (parseInt (params_id req)) as [n|]; [|reflexivity].
    destruct (query p _) as [[p' [|r rs]]|]; cbn [snd status json]; discriminate.
  - unfold Server.getEmployeeById.
    destruct (parseInt (params_id req)) as [n|]; [discriminate | reflexivity].
  - unfold Server.put_employees_id.
    destruct (parseInt (params_id req)) as [n|]; [|reflexivity].
    destruct (Server.missing_fields _ _ _);
      [|destruct (query p _) as [[p' [|r rs]]|]];
      cbn [snd]; intros H; inversion H.
  - unfold Server.put_employees_id.
    destruct (parseInt (params_id req)) as [n|]; [discriminate | reflexivity].
  - unfold Server.delete_employees_id.
    destruct (parseInt (params_id req)) as [n|]; [|reflexivity].
    destruct (query p _) as [[p' [|r rs]]|]; cbn [snd status json]; discriminate.
  - unfold Server.delete_employees_id.
    destruct (parseInt (params_id req)) as [n|]; [discriminate | reflexivity].
  - unfold Server.getEmployeeById. rewrite H. reflexivity.
  - unfold Server.put_employees_id. rewrite H, H0. reflexivity.
  - unfold Server.delete_employees_id. rewrite H. reflexivity.
Qed.

(** C10 at ["12abc"]: the request is answered exactly as the request for
    ["12"] is. *)
Lemma C10_id_parsing_numeric_prefix_witness :
  Server.getEmployeeById (E := sample_engine) sample_pool (anonymous "12abc" [])
  = Server.getEmployeeById (E := sample_engine) sample_pool (anonymous "12" []).
Proof.
  apply (C10_id_parsing_numeric_prefix (E := sample_engine) sample_pool
           (anonymous "12" [])); reflexivity.
Defined.

(** ** Reading, updating and deleting one employee *)

(** C5. [GET /employees/:id] in [src/server.js]: a parameter [parseInt]
    cannot read is answered 400; for a parsed id whose query the engine
    answers, the response is 404 when no row has that id and 200 with the
    row when exactly one has. *)
Theorem C5_getEmployeeById_zero_or_one {E : Externals} (p : Pool) (req : Request) :
  (parseInt (params_id req) = None ->
     snd (Server.getEmployeeById p req) = json 400 (error_body "Invalid employee ID"))
  /\ (forall id, parseInt (params_id req) = Some id ->
        throws p (SelectById (JNum id)) = false ->
        (filter (matches "id" (JNum id)) (table p) = [] ->
           snd (Server.getEmployeeById p req)
           = json 404 (error_body "Employee not found"))
        /\ (forall r, filter (matches "id" (JNum id)) (table p) = [r] ->
              snd (Server.getEmployeeById p req) = json 200 (JObj r))).
Proof.
  unfold Server.getEmployeeById, query. split.
  - intros H. rewrite H. reflexivity.
  - intros id Hid Hok. rewrite Hid, Hok. cbn [run]. split.
    + intros H. rewrite H. reflexivity.
    + intros r H. rewrite H. reflexivity.
Qed.

(** C5 on the sample table: id 2 is Bob's row, id 7 is nobody's, ["x"] is
    not an id. *)
Lemma C5_getEmployeeById_zero_or_one_witness :
  snd (Server.getEmployeeById (E := sample_engine) sample_pool (anonymous "2" []))
  = json 200 (JObj bob)
  /\ snd (Server.getEmployeeById (E := sample_engine) sample_pool (anonymous "7" []))
     = json 404 (error_body "Employee not found")
  /\ snd (Server.getEmployeeById (E := sample_engine) sample_pool (anonymous "x" []))
     = json 400 (error_body "Invalid employee ID").
Proof.
  split; [|split].
  - apply (proj2 (C5_getEmployeeById_zero_or_one (E := sample_engine) sample_pool
                    (anonymous "2" [])) 2); reflexivity.
  - apply (proj2 (C5_getEmployeeById_zero_or_one (E := sample_engine) sample_pool
                    (anonymous "7" [])) 7); reflexivity.
  - apply (proj1 (C5_getEmployeeById_zero_or_one (E := sample_engine) sample_pool
                    (anonymous "x" []))); reflexivity.
Defined.

(** C7. A [PUT /employees/:id] whose body lacks [name], [email] or
    [department] is answered 400 and leaves the pool, hence every stored
    row, as it was. *)
Theorem C7_put_missing_field_changes_nothing {E : Externals} (p : Pool) (req : Request) :
  has_prop "name" (body req) = false \/
  has_prop "email" (body req) = false \/
  has_prop "department" (body req) = false ->
  status (snd (Server.put_employees_id p req)) = 400 /\
  fst (Server.put_employees_id p req) = p.
Proof.
  intros Hmiss. unfold Server.put_employees_id.
  destruct (parseInt (params_id req)) as [id|]; [|split; reflexivity].
  assert (Hm : Server.missing_fields (prop "name" (body req))
                 (prop "email" (body req)) (prop "department" (body req)) = true).
  { unfold Server.missing_fields.
    destruct Hmiss as [H|[H|H]]; rewrite (absent_not_truthy _ _ H);
      cbn [negb]; rewrite ?orb_true_r; reflexivity. }
  rewrite Hm. split; reflexivity.
Qed.

(** C7 on the sample table: a body without [email] for Bob's id. *)
Lemma C7_put_missing_field_changes_nothing_witness :
  status (snd (Server.put_employees_id (E := sample_engine) sample_pool
                 (anonymous "2" [("name", JStr "Robert"); ("department", JStr "Ops")])))
  = 400 /\
  fst (Server.put_employees_id (E := sample_engine) sample_pool
         (anonymous "2" [("name", JStr "Robert"); ("department", JStr "Ops")]))
  = sample_pool.
Proof.
  apply (C7_put_missing_field_changes_nothing (E := sample_engine)).
  right. left. reflexivity.
Defined.

(** C8. After a [DELETE /employees/:id] answered 200, a
    [GET /employees/:id] for the same id whose query the engine answers is
    answered 404. *)
Theorem C8_get_after_delete_is_404 {E : Externals}
    (p : Pool) (del get : Request) (id : Z) :
  parseInt (params_id del) = Some id ->
  parseInt (params_id get) = Some id ->
  status (snd (Server.delete_employees_id p del)) = 200 ->
  throws (fst (Server.delete_employees_id p del)) (SelectById (JNum id)) = false ->
  snd (Server.getEmployeeById (fst (Server.delete_employees_id p del)) get)
  = json 404 (error_body "Employee not found").
Proof.
  intros Hdel Hget. unfold Server.delete_employees_id, Server.getEmployeeById, query.
  rewrite Hdel, Hget.
  destruct (throws p (DeleteEmployee (JNum id))); [discriminate|].
  cbn [run]. destruct (filter (matches "id" (JNum id)) (table p)) as [|r rs];
    [discriminate|].
  cbn [fst snd]. intros _ Hok. rewrite Hok.
  cbn [run with_table table]. rewrite filter_after_delete. reflexivity.
Qed.

(** C8 on the sample table: Bob is deleted, then asked for. *)
Lemma C8_get_after_delete_is_404_witness :
  snd (Server.getEmployeeById (E := sample_engine)
         (fst (Server.delete_employees_id (E := sample_engine) sample_pool
                 (anonymous "2" [])))
         (anonymous "2" []))
  = json 404 (error_body "Employee not found").
Proof.
  apply (C8_get_after_delete_is_404 (E := sample_engine) sample_pool
           (anonymous "2" []) (anonymous "2" []) 2); reflexivity.
Defined.

(** C9. The session variant of [GET /employees/:id] looks the row up before
    it looks at the requester: with a parsed id and an answered query, an id
    no row has is answered 404 whoever asks, and an id some row has is
    answered 403 to a requester who may not read it.  A requester without
    a session may read nothing, so for such a requester the 404 tells
    exactly that the id is unused. *)
Theorem C9_existence_before_authorization {E : Externals}
    (p : Pool) (req : Request) (id : Z) :
  parseInt (params_id req) = Some id ->
  throws p (SelectById (JNum id)) = false ->
  (filter (matches "id" (JNum id)) (table p) = [] ->
     snd (AuthServer.get_employees_id p req)
     = AuthServer.Sent (json 404 (error_body "Employee not found")))
  /\ (filter (matches "id" (JNum id)) (table p) <> [] ->
      AuthServer.may_read req id = false ->
      snd (AuthServer.get_employees_id p req)
      = AuthServer.Sent (send 403 "Forbidden"))
  /\ (isAuthenticated req = false -> AuthServer.may_read req id = false)
  /\ (AuthServer.may_read req id = false ->
      (snd (AuthServer.get_employees_id p req)
       = AuthServer.Sent (json 404 (error_body "Employee not found"))
       <-> filter (matches "id" (JNum id)) (table p) = [])).
Proof.
  intros Hid Hok. unfold AuthServer.get_employees_id, query.
  rewrite Hid, Hok. cbn [run].
  destruct (filter (matches "id" (JNum id)) (table p)) as [|r rs] eqn:Hrows.
  - repeat split; try reflexivity.
    + intros H. now elim H.
    + intros H. unfold AuthServer.may_read. rewrite H. reflexivity.
  - repeat split; try discriminate.
    + intros _ Hno. rewrite Hno. reflexivity.
    + intros H. unfold AuthServer.may_read. rewrite H. reflexivity.
    + rewrite H. cbn [snd]. intros H'. inversion H'.
Qed.

(** C9 on the sample table, asked without a session: the unused id 7 is
    answered 404, Bob's id 2 is answered 403. *)
Lemma C9_existence_before_authorization_witness :
  snd (AuthServer.get_employees_id (E := sample_engine) sample_pool (anonymous "7" []))
  = AuthServer.Sent (json 404 (error_body "Employee not found"))
  /\ snd (AuthServer.get_employees_id (E := sample_engine) sample_pool (anonymous "2" []))
     = AuthServer.Sent (send 403 "Forbidden").
Proof.
  split.
  - apply (C9_existence_before_authorization (E := sample_engine) sample_pool
             (anonymous "7" []) 7); reflexivity.
  - apply (C9_existence_before_authorization (E := sample_engine) sample_pool
             (anonymous "2" []) 2); [reflexivity | reflexivity | discriminate | reflexivity].
Defined.

(** ** Password reset *)

(** C3. [POST /reset-password] sent by an admin with a string as new
    password, whose UPDATE the engine accepts, is answered 200
    "Password reset successfully" whatever the employee id is; when no row
    has that id the table is left as it was. *)
Theorem C3_reset_password_unknown_id_succeeds {E : Externals}
    (p : Pool) (req : Request) (u : Row) (pw : string) :
  isAuthenticated req = true ->
  user req = Some u ->
  prop "role" u = JStr "admin" ->
  prop "newPassword" (body req) = JStr pw ->
  throws p (UpdatePassword (JStr (bcrypt_hash pw 10))
              (prop "employeeId" (body req))) = false ->
  snd (AuthServer.post_reset_password p req)
  = AuthServer.Sent (json 200 (message_body "Password reset successfully"))
  /\ (filter (matches "employee_id" (prop "employeeId" (body req))) (table p) = [] ->
      table (fst (AuthServer.post_reset_password p req)) = table p).
Proof.
  intros Ha Hu Hrole Hpw Hok.
  unfold AuthServer.post_reset_password, AuthServer.guarded,
    AuthServer.checkRole, AuthServer.user_has_role.
  rewrite Ha, Hu, Hrole. cbn [strict_eq_str]. rewrite String.eqb_refl.
  cbn [andb]. rewrite Hpw. cbn [AuthServer.hash_password].
  unfold query. rewrite Hok. cbn [run fst snd with_table table].
  split; [reflexivity|].
  apply update_without_match.
Qed.

(** C3 on the sample table: Alice, an admin, resets the password of
    employee 99, whom the table does not hold. *)
Lemma C3_reset_password_unknown_id_succeeds_witness :
  snd (AuthServer.post_reset_password (E := sample_engine) sample_pool
         (logged_in alice "" [("employeeId", JNum 99); ("newPassword", JStr "s3cret")]))
  = AuthServer.Sent (json 200 (message_body "Password reset successfully"))
  /\ table (fst (AuthServer.post_reset_password (E := sample_engine) sample_pool
              (logged_in alice "" [("employeeId", JNum 99);
                                   ("newPassword", JStr "s3cret")])))
     = table sample_pool.
Proof.
  destruct (C3_reset_password_unknown_id_succeeds (E := sample_engine) sample_pool
              (logged_in alice "" [("employeeId", JNum 99); ("newPassword", JStr "s3cret")])
              alice "s3cret") as [Hsent Hsame]; try reflexivity.
  split; [exact Hsent | apply Hsame; reflexivity].
Defined.

(** ** Login *)

(** The login callback answers every failed attempt the same way, whatever
    made it fail. *)
Lemma login_callback_on_failure (req : Request) :
  AuthServer.login_callback req AuthServer.VFail
  = AuthServer.Sent (json 401 (message_body "Authentication failed")).
Proof. reflexivity. Qed.

(** As written, the only response [POST /login] ever sends is the 401 for a
    body that lacks a credential. *)
Lemma post_login_only_sends_401 {E : Externals} (p : Pool) (req : Request)
    (resp : Response) :
  snd (AuthServer.post_login p req) = AuthServer.Sent resp ->
  resp = json 401 (message_body "Authentication failed").
Proof.
  unfold AuthServer.post_login, AuthServer.authenticate, AuthServer.localVerify.
  destruct (negb _ || negb _); cbn [snd AuthServer.login_callback].
  - intros H. injection H as <-. reflexivity.
  - destruct (query p _); discriminate.
Qed.

(** C4. What [POST /login] does with an attempt that carries both
    credentials and whose lookup the engine answers: the verify callback
    never reports, so no response is sent, neither 401 nor any other. *)
Theorem C4_login_attempt_gets_no_reply {E : Externals} (p : Pool) (req : Request) :
  truthy (prop "employeeId" (body req)) = true ->
  truthy (prop "password" (body req)) = true ->
  throws p (SelectById (prop "employeeId" (body req))) = false ->
  snd (AuthServer.post_login p req) = AuthServer.NoReply.
Proof.
  intros Hid Hpw Hok.
  unfold AuthServer.post_login, AuthServer.authenticate, AuthServer.localVerify, query.
  rewrite Hid, Hpw, Hok. reflexivity.
Qed.

(** C4 on the sample table: an attempt for the unknown employee 99 and an
    attempt for Bob with a wrong password both stay unanswered. *)
Lemma C4_login_attempt_gets_no_reply_witness :
  snd (AuthServer.post_login (E := sample_engine) sample_pool
         (anonymous "" [("employeeId", JNum 99); ("password", JStr "guess")]))
  = AuthServer.NoReply
  /\ snd (AuthServer.post_login (E := sample_engine) sample_pool
            (anonymous "" [("employeeId", JNum 2); ("password", JStr "wrong")]))
     = AuthServer.NoReply.
Proof.
  split; apply (C4_login_attempt_gets_no_reply (E := sample_engine)); reflexivity.
Defined.

(** ** Creating an employee *)

(** C6, as stated, fails: with all three fields present in the body and an
    engine that accepts the INSERT, an empty [name] is answered 400. *)
Lemma C6_present_but_empty_field_is_refused :
  has_prop "name" blank_name_body = true
  /\ has_prop "email" blank_name_body = true
  /\ has_prop "department" blank_name_body = true
  /\ throws sample_pool
       (InsertEmployee (prop "name" blank_name_body) (prop "email" blank_name_body)
          (prop "department" blank_name_body)) = false
  /\ Server.post_employees (E := sample_engine) sample_pool (anonymous "" blank_name_body)
     = (sample_pool, json 400 (error_body "Missing required fields")).
Proof. repeat split. Qed.

(** C6, amended. [POST /employees] is answered 400 whenever one of [name],
    [email], [department] is absent from the body or falsy (empty string,
    null, false, 0), and nothing is stored; when all three are truthy and the
    engine accepts the INSERT it is answered 201 with the row just appended
    to the table, whose [id] is the value generated by the sequence. *)
Theorem C6_post_employees_needs_truthy_fields {E : Externals} (p : Pool) (req : Request) :
  (has_prop "name" (body req) = false \/
   has_prop "email" (body req) = false \/
   has_prop "department" (body req) = false ->
   Server.post_employees p req = (p, json 400 (error_body "Missing required fields")))
  /\ (truthy (prop "name" (body req)) = false \/
      truthy (prop "email" (body req)) = false \/
      truthy (prop "department" (body req)) = false ->
      Server.post_employees p req = (p, json 400 (error_body "Missing required fields")))
  /\ (truthy (prop "name" (body req)) = true ->
      truthy (prop "email" (body req)) = true ->
      truthy (prop "department" (body req)) = true ->
      throws p (InsertEmployee (prop "name" (body req)) (prop "email" (body req))
                  (prop "department" (body req))) = false ->
      exists r,
        snd (Server.post_employees p req) = json 201 (JObj r)
        /\ prop "id" r = JNum (serial p)
        /\ table (fst (Server.post_employees p req)) = (table p ++ [r])%list).
Proof.
  assert (Hfalsy :
    truthy (prop "name" (body req)) = false \/
    truthy (prop "email" (body req)) = false \/
    truthy (prop "department" (body req)) = false ->
    Server.post_employees p req = (p, json 400 (error_body "Missing required fields"))).
  { intros H. unfold Server.post_employees, Server.missing_fields.
    destruct H as [H|[H|H]]; rewrite H; cbn [negb]; rewrite ?orb_true_r; reflexivity. }
  split; [|split].
  - intros [H|[H|H]]; apply Hfalsy; rewrite (absent_not_truthy _ _ H); tauto.
  - exact Hfalsy.
  - intros Hn He Hd Hok. unfold Server.post_employees, Server.missing_fields, query.
    rewrite Hn, He, Hd, Hok. cbn [negb orb run first_row fst snd table].
    eexists. split; [reflexivity|]. split; reflexivity.
Qed.

(** C6, amended, on the sample table: a complete body is stored under the
    generated id 3; a body without [email] is refused. *)
Lemma C6_post_employees_needs_truthy_fields_witness :
  (exists r,
     snd (Server.post_employees (E := sample_engine) sample_pool
            (anonymous "" [("name", JStr "Carol"); ("email", JStr "c@x.com");
                           ("department", JStr "Eng")]))
     = json 201 (JObj r)
     /\ prop "id" r = JNum 3
     /\ table (fst (Server.post_employees (E := sample_engine) sample_pool
                  (anonymous "" [("name", JStr "Carol"); ("email", JStr "c@x.com");
                                 ("department", JStr "Eng")])))
        = (table sample_pool ++ [r])%list)
  /\ Server.post_employees (E := sample_engine) sample_pool
       (anonymous "" [("name", JStr "Carol"); ("department", JStr "Eng")])
     = (sample_pool, json 400 (error_body "Missing required fields")).
Proof.
  split.
  - apply (proj2 (proj2 (C6_post_employees_needs_truthy_fields (E := sample_engine)
                           sample_pool
                           (anonymous "" [("name", JStr "Carol"); ("email", JStr "c@x.com");
                                          ("department", JStr "Eng")]))));
      reflexivity.
  - apply (proj1 (C6_post_employees_needs_truthy_fields (E := sample_engine)
                    sample_pool
                    (anonymous "" [("name", JStr "Carol"); ("department", JStr "Eng")]))).
    right. left. reflexivity.
Defined.

(** ** What a response shows of a row *)

(** C1, as stated, fails: [GET /employees/1] on the sample table is
    answered 200 with Alice's row as stored, password digest included. *)
Lemma C1_password_digest_in_response :
  Server.getEmployeeById (E := sample_engine) sample_pool (anonymous "1" [])
  = (sample_pool, json 200 (JObj alice))
  /\ prop "password" alice = JStr "$2b$10$alice-digest"
  /\ exposes_password
       (snd (Server.getEmployeeById (E := sample_engine) sample_pool (anonymous "1" [])))
     = true.
Proof. repeat split. Qed.

(** C1, amended. The successful responses of [GET /employees],
    [GET /employees/:id], [POST /employees], [PUT /employees/:id] and
    [DELETE /employees/:id] (and of the two guarded GET routes of the session
    variant) carry the rows as the engine returned them, with every column:
    a row with a [password] column shows it in the response. *)
Theorem C1_rows_returned_with_every_column {E : Externals} (p : Pool) (req : Request) :
  (status (snd (Server.getAllEmployees p req)) = 200 ->
     payload (snd (Server.getAllEmployees p req)) = Json (JArr (map JObj (table p))))
  /\ (status (snd (Server.getEmployeeById p req)) = 200 ->
      exists r, In r (table p) /\
        payload (snd (Server.getEmployeeById p req)) = Json (JObj r))
  /\ (status (snd (Server.post_employees p req)) = 201 ->
      exists r, In r (table (fst (Server.post_employees p req))) /\
        payload (snd (Server.post_employees p req)) = Json (JObj r))
  /\ (status (snd (Server.put_employees_id p req)) = 200 ->
      exists r, In r (table (fst (Server.put_employees_id p req))) /\
        payload (snd (Server.put_employees_id p req)) = Json (JObj r))
  /\ (status (snd (Server.delete_employees_id p req)) = 200 ->
      exists id r, In r (table p) /\
        payload (snd (Server.delete_employees_id p req))
        = Json (Server.deleted_body id r))
  /\ (forall resp, snd (AuthServer.get_employees p req) = AuthServer.Sent resp ->
        status resp = 200 -> payload resp = Json (JArr (map JObj (table p))))
  /\ (forall resp, snd (AuthServer.get_employees_id p req) = AuthServer.Sent resp ->
        status resp = 200 -> exists r, In r (table p) /\ payload resp = Json (JObj r))
  /\ (forall r, has_prop "password" r = true ->
        has_password (JObj r) = true
        /\ (forall id, has_password (Server.deleted_body id r) = true)
        /\ (forall rows, In r rows -> has_password (JArr (map JObj rows)) = true)).
Proof.
  repeat apply conj.
  - unfold Server.getAllEmployees, query.
    destruct (throws p SelectAll); [discriminate | reflexivity].
  - unfold Server.getEmployeeById, query.
    destruct (parseInt (params_id req)) as [n|]; [|discriminate].
    destruct (throws p _); [discriminate|]. cbn [run].
    destruct (filter _ (table p)) as [|r rs] eqn:Hrows; [discriminate|].
    intros _. exists r. split; [exact (filter_head_In _ _ _ _ Hrows) | reflexivity].
  - unfold Server.post_employees, query.
    destruct (Server.missing_fields _ _ _); [discriminate|].
    destruct (throws p _); [discriminate|]. cbn [run first_row fst snd table].
    intros _. eexists. split; [|reflexivity].
    apply in_or_app. right. left. reflexivity.
  - unfold Server.put_employees_id, query.
    destruct (parseInt (params_id req)) as [n|]; [|discriminate].
    destruct (Server.missing_fields _ _ _); [discriminate|].
    destruct (throws p _); [discriminate|]. cbn [run].
    destruct (map _ (filter _ (table p))) as [|r rs] eqn:Hrows; [discriminate|].
    intros _. exists r. split; [|reflexivity].
    cbn [fst with_table table]. exact (updated_head_In _ _ _ _ _ Hrows).
  - unfold Server.delete_employees_id, query.
    destruct (parseInt (params_id req)) as [n|]; [|discriminate].
    destruct (throws p _); [discriminate|]. cbn [run].
    destruct (filter _ (table p)) as [|r rs] eqn:Hrows; [discriminate|].
    intros _. exists n, r. split; [exact (filter_head_In _ _ _ _ Hrows) | reflexivity].
  - unfold AuthServer.get_employees, AuthServer.guarded, query.
    destruct (AuthServer.checkRole "admin" req) as [o|] eqn:Hguard.
    + unfold AuthServer.checkRole in Hguard.
      destruct (isAuthenticated req && _); [discriminate|].
      injection Hguard as <-. intros resp H. injection H as <-. discriminate.
    + destruct (throws p SelectAll); intros resp H; injection H as <-;
        [discriminate | reflexivity].
  - unfold AuthServer.get_employees_id, query.
    destruct (parseInt (params_id req)) as [n|];
      [|intros resp H; injection H as <-; discriminate].
    destruct (throws p _); [intros resp H; injection H as <-; discriminate|].
    cbn [run].
    destruct (filter _ (table p)) as [|r rs] eqn:Hrows;
      [intros resp H; injection H as <-; discriminate|].
    destruct (AuthServer.may_read req n); intros resp H; injection H as <-;
      [|discriminate].
    intros _. exists r. split; [exact (filter_head_In _ _ _ _ Hrows) | reflexivity].
  - intros r Hr. pose proof (has_password_row r Hr) as Hp.
    split; [exact Hp|]. split.
    + intros id.
      change (has_password (Server.deleted_body id r))
        with (false || false || (false || has_password (JObj r) || false)).
      rewrite Hp. reflexivity.
    + intros rows Hin. exact (has_password_rows rows r Hin Hp).
Qed.

(** C1, amended, on the sample table: the list of all employees is the
    stored table, Alice's digest included. *)
Lemma C1_rows_returned_with_every_column_witness :
  payload (snd (Server.getAllEmployees (E := sample_engine) sample_pool (anonymous "" [])))
  = Json (JArr [JObj alice; JObj bob])
  /\ has_password (JArr (map JObj [alice; bob])) = true.
Proof.
  destruct (C1_rows_returned_with_every_column (E := sample_engine) sample_pool
              (anonymous "" [])) as (Hall & _ & _ & _ & _ & _ & _ & Hpw).
  split.
  - apply Hall. reflexivity.
  - destruct (Hpw alice) as (_ & _ & Hrows); [reflexivity|].
    apply Hrows. left. reflexivity.
Defined.

(** ** Further facts about rows, filters and the table *)

Lemma prop_set_prop_same (k : string) (v : JsVal) (o : Row) :
  prop k (set_prop k v o) = v.
Proof.
  induction o as [|[k' v'] rest IH]; simpl.
  - rewrite String.eqb_refl. reflexivity.
  - destruct (String.eqb k k') eqn:Hk; simpl.
    + rewrite String.eqb_refl. reflexivity.
    + rewrite Hk. exact IH.
Qed.

Lemma prop_set_prop_other (k k' : string) (v : JsVal) (o : Row) :
  String.eqb k k' = false -> prop k (set_prop k' v o) = prop k o.
Proof.
  intros Hk. induction o as [|[k0 v0] rest IH]; simpl.
  - rewrite Hk. reflexivity.
  - destruct (String.eqb k' k0) eqn:H0; simpl.
    + apply String.eqb_eq in H0. subst k0. rewrite Hk. reflexivity.
    + destruct (String.eqb k k0); [reflexivity | exact IH].
Qed.

Lemma strict_eq_str_true (v : JsVal) (s : string) :
  strict_eq_str v s = true <-> v = JStr s.
Proof.
  destruct v; simpl; split; try discriminate.
  - intros H. apply String.eqb_eq in H. now subst.
  - intros H. injection H as ->. apply String.eqb_refl.
Qed.

Lemma strict_eq_num_true (v : JsVal) (n : Z) :
  strict_eq_num v n = true <-> v = JNum n.
Proof.
  destruct v; simpl; split; try discriminate.
  - intros H. apply Z.eqb_eq in H. now subst.
  - intros H. injection H as ->. apply Z.eqb_refl.
Qed.

Lemma filter_map_stable {A : Type} (f : A -> bool) (h : A -> A) (l : list A) :
  (forall x, f (h x) = f x) -> filter f (map h l) = map h (filter f l).
Proof.
  intros Hf. induction l as [|x l IH]; simpl; [reflexivity|].
  rewrite Hf. destruct (f x); simpl; rewrite IH; reflexivity.
Qed.

Lemma map_on_matching {A : Type} (f : A -> bool) (g : A -> A) (l : list A) :
  map (fun x => if f x then g x else x) (filter f l) = map g (filter f l).
Proof.
  induction l as [|x l IH]; simpl; [reflexivity|].
  destruct (f x) eqn:Hx; simpl; [rewrite Hx, IH; reflexivity | exact IH].
Qed.

Lemma filter_negb_none {A : Type} (f : A -> bool) (l : list A) :
  filter f l = [] -> filter (fun x => negb (f x)) l = l.
Proof.
  induction l as [|x l IH]; simpl; [reflexivity|].
  destruct (f x); simpl; [discriminate|].
  intros H. rewrite (IH H). reflexivity.
Qed.

Lemma filter_disjoint {A : Type} (f g : A -> bool) (l : list A) :
  (forall x, In x l -> g x = true -> f x = false) ->
  filter g (filter (fun x => negb (f x)) l) = filter g l.
Proof.
  induction l as [|x l IH]; simpl; [reflexivity|].
  intros H.
  assert (IH' : filter g (filter (fun x => negb (f x)) l) = filter g l).
  { apply IH. intros y Hy. apply H. right. exact Hy. }
  destruct (f x) eqn:Hfx; simpl.
  - destruct (g x) eqn:Hgx; [|exact IH'].
    rewrite (H x (or_introl eq_refl) Hgx) in Hfx. discriminate.
  - rewrite IH'. reflexivity.
Qed.

Lemma filter_unique_head {A : Type} (f : A -> bool) (l : list A) (u : A) :
  In u l -> f u = true -> (forall x, In x l -> f x = true -> x = u) ->
  exists rest, filter f l = u :: rest.
Proof.
  intros Hin Hu Huniq.
  destruct (filter f l) as [|x rest] eqn:Hf.
  - assert (H : In u (filter f l)) by (apply filter_In; split; assumption).
    rewrite Hf in H. destruct H.
  - exists rest. f_equal.
    assert (H : In x (filter f l)) by (rewrite Hf; left; reflexivity).
    apply filter_In in H. destruct H as [Hx Hfx]. exact (Huniq x Hx Hfx).
Qed.

Lemma with_table_same (p : Pool) : with_table p (table p) = p.
Proof. destruct p. reflexivity. Qed.

Lemma matches_id_set_employee {E : Externals} (v n e d : JsVal) (r : Row) :
  matches "id" v (set_employee n e d r) = matches "id" v r.
Proof.
  unfold matches, set_employee.
  rewrite !prop_set_prop_other by reflexivity. reflexivity.
Qed.

Lemma matches_id_set_password {E : Externals} (v d : JsVal) (r : Row) :
  matches "id" v (set_prop "password" d r) = matches "id" v r.
Proof.
  unfold matches. rewrite prop_set_prop_other by reflexivity. reflexivity.
Qed.

Lemma missing_fields_false (n e d : JsVal) :
  truthy n = true -> truthy e = true -> truthy d = true ->
  Server.missing_fields n e d = false.
Proof.
  intros Hn He Hd. unfold Server.missing_fields. rewrite Hn, He, Hd. reflexivity.
Qed.

(** ** [PUT /employees/:id]: what an update writes *)

(** X1. A complete [PUT] for an id no row has is answered 404 and changes
    nothing. *)
Theorem put_unknown_id_is_404 {E : Externals} (p : Pool) (req : Request) (id : Z) :
  parseInt (params_id req) = Some id ->
  truthy (prop "name" (body req)) = true ->
  truthy (prop "email" (body req)) = true ->
  truthy (prop "department" (body req)) = true ->
  throws p (UpdateEmployee (prop "name" (body req)) (prop "email" (body req))
              (prop "department" (body req)) (JNum id)) = false ->
  filter (matches "id" (JNum id)) (table p) = [] ->
  Server.put_employees_id p req = (p, json 404 (error_body "Employee not found")).
Proof.
  intros Hid Hn He Hd Hok Hnone. unfold Server.put_employees_id, query.
  rewrite Hid, (missing_fields_false _ _ _ Hn He Hd), Hok. cbn [run].
  rewrite Hnone. cbn [map].
  rewrite (update_without_match _ _ _ Hnone), with_table_same. reflexivity.
Qed.

(** X1 on the sample table: nobody has id 7. *)
Lemma put_unknown_id_is_404_witness :
  Server.put_employees_id (E := sample_engine) sample_pool
    (anonymous "7" [("name", JStr "Zed"); ("email", JStr "z@x.com");
                    ("department", JStr "Ops")])
  = (sample_pool, json 404 (error_body "Employee not found")).
Proof.
  apply (put_unknown_id_is_404 (E := sample_engine) sample_pool _ 7); reflexivity.
Defined.



(** X3. After a [PUT] answered 200, a [GET] of [src/server.js] for the same
    id whose query the engine answers returns the very row the [PUT]
    returned. *)
Theorem get_after_put_returns_updated_row {E : Externals}
    (p : Pool) (put get : Request) (id : Z) :
  parseInt (params_id put) = Some id ->
  parseInt (params_id get) = Some id ->
  status (snd (Server.put_employees_id p put)) = 200 ->
  throws (fst (Server.put_employees_id p put)) (SelectById (JNum id)) = false ->
  snd (Server.getEmployeeById (fst (Server.put_employees_id p put)) get)
  = snd (Server.put_employees_id p put).
Proof.
  intros Hput Hget. unfold Server.put_employees_id, Server.getEmployeeById, query.
  rewrite Hput, Hget.
  destruct (Server.missing_fields _ _ _); [discriminate|].
  destruct (throws p _); [discriminate|]. cbn [run].
  destruct (map _ (filter (matches "id" (JNum id)) (table p))) as [|r rs] eqn:Hrows;
    [discriminate|].
  cbn [fst snd]. intros _ Hok. rewrite Hok. cbn [run with_table table].
  rewrite filter_map_stable.
  - rewrite map_on_matching, Hrows. reflexivity.
  - intros x. destruct (matches "id" (JNum id) x) eqn:Hx;
      [rewrite matches_id_set_employee|]; exact Hx.
Qed.

(** X3 on the sample table: Bob is renamed, then read. *)
Lemma get_after_put_returns_updated_row_witness :
  snd (Server.getEmployeeById (E := sample_engine)
         (fst (Server.put_employees_id (E := sample_engine) sample_pool
                 (anonymous "2" [("name", JStr "Robert"); ("email", JStr "b@x.com");
                                 ("department", JStr "Ops")])))
         (anonymous "2" []))
  = snd (Server.put_employees_id (E := sample_engine) sample_pool
           (anonymous "2" [("name", JStr "Robert"); ("email", JStr "b@x.com");
                           ("department", JStr "Ops")])).
Proof.
  apply (get_after_put_returns_updated_row (E := sample_engine) sample_pool _ _ 2);
    reflexivity.
Defined.

(** ** [DELETE /employees/:id]: what a deletion removes *)

(** X4. A [DELETE] for an id no row has is answered 404 and changes
    nothing. *)
Theorem delete_unknown_id_is_404 {E : Externals} (p : Pool) (req : Request) (id : Z) :
  parseInt (params_id req) = Some id ->
  throws p (DeleteEmployee (JNum id)) = false ->
  filter (matches "id" (JNum id)) (table p) = [] ->
  Server.delete_employees_id p req = (p, json 404 (error_body "Employee not found")).
Proof.
  intros Hid Hok Hnone. unfold Server.delete_employees_id, query.
  rewrite Hid, Hok. cbn [run]. rewrite Hnone.
  rewrite (filter_negb_none _ _ Hnone), with_table_same. reflexivity.
Qed.

(** X4 on the sample table: nobody has id 7. *)
Lemma delete_unknown_id_is_404_witness :
  Server.delete_employees_id (E := sample_engine) sample_pool (anonymous "7" [])
  = (sample_pool, json 404 (error_body "Employee not found")).
Proof.
  apply (delete_unknown_id_is_404 (E := sample_engine) sample_pool _ 7); reflexivity.
Defined.

(** X5. A [DELETE] for an id some row has is answered 200 with the first
    such row, and the table afterwards holds exactly the rows that do not
    have that id. *)
Theorem delete_removes_exactly_matching_rows {E : Externals}
    (p : Pool) (req : Request) (id : Z) (r0 : Row) (rest : list Row) :
  parseInt (params_id req) = Some id ->
  throws p (DeleteEmployee (JNum id)) = false ->
  filter (matches "id" (JNum id)) (table p) = r0 :: rest ->
  snd (Server.delete_employees_id p req) = json 200 (Server.deleted_body id r0)
  /\ (forall r, In r (table (fst (Server.delete_employees_id p req))) <->
        In r (table p) /\ matches "id" (JNum id) r = false).
Proof.
  intros Hid Hok Hrows. unfold Server.delete_employees_id, query.
  rewrite Hid, Hok. cbn [run]. rewrite Hrows. cbn [fst snd with_table table].
  split; [reflexivity|].
  intros r. rewrite filter_In. rewrite negb_true_iff. reflexivity.
Qed.

(** X5 on the sample table: deleting id 2 returns Bob and leaves Alice. *)
Lemma delete_removes_exactly_matching_rows_witness :
  snd (Server.delete_employees_id (E := sample_engine) sample_pool (anonymous "2" []))
  = json 200 (Server.deleted_body 2 bob)
  /\ (In alice (table (fst (Server.delete_employees_id (E := sample_engine)
                             sample_pool (anonymous "2" [])))) <->
      In alice (table sample_pool)
      /\ matches (E := sample_engine) "id" (JNum 2) alice = false).
Proof.
  destruct (delete_removes_exactly_matching_rows (E := sample_engine) sample_pool
              (anonymous "2" []) 2 bob []) as [Hresp Hrows]; try reflexivity.
  split; [exact Hresp | exact (Hrows alice)].
Defined.

(** X6. A [DELETE] repeated after one answered 200 is answered 404 and
    changes nothing more. *)
Theorem second_delete_is_404 {E : Externals}
    (p : Pool) (first second : Request) (id : Z) :
  parseInt (params_id first) = Some id ->
  parseInt (params_id second) = Some id ->
  status (snd (Server.delete_employees_id p first)) = 200 ->
  Server.delete_employees_id (fst (Server.delete_employees_id p first)) second
  = (fst (Server.delete_employees_id p first),
     json 404 (error_body "Employee not found")).
Proof.
  intros H1 H2. unfold Server.delete_employees_id at 1 3 4, query. rewrite H1.
  destruct (throws p (DeleteEmployee (JNum id))) eqn:Hok; [discriminate|].
  cbn [run]. destruct (filter (matches "id" (JNum id)) (table p)) as [|r rs];
    [discriminate|].
  cbn [fst snd]. intros _.
  unfold Server.delete_employees_id, query. rewrite H2.
  cbn [with_table throws table]. rewrite Hok. cbn [run with_table table throws
    serial defaults].
  rewrite filter_after_delete.
  rewrite (filter_negb_none _ _ (filter_after_delete _ _)). reflexivity.
Qed.

(** X6 on the sample table: Bob is deleted twice. *)
Lemma second_delete_is_404_witness :
  snd (Server.delete_employees_id (E := sample_engine)
         (fst (Server.delete_employees_id (E := sample_engine) sample_pool
                 (anonymous "2" [])))
         (anonymous "2" []))
  = json 404 (error_body "Employee not found").
Proof.
  rewrite (second_delete_is_404 (E := sample_engine) sample_pool
             (anonymous "2" []) (anonymous "2" []) 2); reflexivity.
Defined.

(** X7. A [DELETE] answered 200 does not disturb other ids: when no row has
    both ids, a [GET] of [src/server.js] for the other id is answered after
    the deletion as it was before. *)
Theorem delete_leaves_other_ids {E : Externals}
    (p : Pool) (del get : Request) (a b : Z) :
  parseInt (params_id del) = Some a ->
  parseInt (params_id get) = Some b ->
  status (snd (Server.delete_employees_id p del)) = 200 ->
  (forall r, In r (table p) -> matches "id" (JNum b) r = true ->
             matches "id" (JNum a) r = false) ->
  snd (Server.getEmployeeById (fst (Server.delete_employees_id p del)) get)
  = snd (Server.getEmployeeById p get).
Proof.
  intros Hdel Hget. unfold Server.delete_employees_id, Server.getEmployeeById, query.
  rewrite Hdel, Hget.
  destruct (throws p (DeleteEmployee (JNum a))); [discriminate|].
  cbn [run]. destruct (filter (matches "id" (JNum a)) (table p)) as [|r rs];
    [discriminate|].
  cbn [fst snd with_table throws]. intros _ Hdisj.
  destruct (throws p (SelectById (JNum b))); [reflexivity|].
  cbn [run with_table table]. rewrite (filter_disjoint _ _ _ Hdisj).
  destruct (filter _ (table p)); reflexivity.
Qed.

(** X7 on the sample table: Alice is read the same before and after Bob is
    deleted. *)
Lemma delete_leaves_other_ids_witness :
  snd (Server.getEmployeeById (E := sample_engine)
         (fst (Server.delete_employees_id (E := sample_engine) sample_pool
                 (anonymous "2" [])))
         (anonymous "1" []))
  = snd (Server.getEmployeeById (E := sample_engine) sample_pool (anonymous "1" [])).
Proof.
  apply (delete_leaves_other_ids (E := sample_engine) sample_pool _ _ 2 1);
    try reflexivity.
  intros r [<-|[<-|[]]]; cbn; [reflexivity | discriminate].
Defined.

(** ** [POST /employees]: what a creation adds *)

Lemma matches_id_new_employee {E : Externals} (p : Pool) (n e d : JsVal) :
  sql_eq (JNum (serial p)) (JNum (serial p)) = true ->
  matches "id" (JNum (serial p)) (new_employee p n e d) = true.
Proof.
  intros H. unfold matches, new_employee. cbn [prop].
  rewrite String.eqb_refl. exact H.
Qed.

(** X8. After a [POST] answered 201, a [GET] of [src/server.js] for the
    generated id returns the created row, provided the id was unused
    before, the engine finds a number equal to itself and answers the
    query. *)
Theorem get_after_post_returns_created_row {E : Externals}
    (p : Pool) (post get : Request) :
  status (snd (Server.post_employees p post)) = 201 ->
  parseInt (params_id get) = Some (serial p) ->
  sql_eq (JNum (serial p)) (JNum (serial p)) = true ->
  filter (matches "id" (JNum (serial p))) (table p) = [] ->
  throws (fst (Server.post_employees p post)) (SelectById (JNum (serial p))) = false ->
  status (snd (Server.getEmployeeById (fst (Server.post_employees p post)) get)) = 200
  /\ payload (snd (Server.getEmployeeById (fst (Server.post_employees p post)) get))
     = payload (snd (Server.post_employees p post)).
Proof.
  unfold Server.post_employees, Server.getEmployeeById, query.
  destruct (Server.missing_fields _ _ _); [discriminate|].
  destruct (throws p _); [discriminate|].
  cbn [run fst snd]. intros _ Hget Hrefl Hfresh Hok.
  rewrite Hget, Hok. cbn [run table]. rewrite filter_app, Hfresh.
  cbn [filter app]. rewrite (matches_id_new_employee _ _ _ _ Hrefl).
  split; reflexivity.
Qed.

(** X8 on the sample table: Carol is created under id 3 and read back. *)
Lemma get_after_post_returns_created_row_witness :
  payload (snd (Server.getEmployeeById (E := sample_engine)
                  (fst (Server.post_employees (E := sample_engine) sample_pool
                          (anonymous "" [("name", JStr "Carol");
                                         ("email", JStr "c@x.com");
                                         ("department", JStr "Eng")])))
                  (anonymous "3" [])))
  = payload (snd (Server.post_employees (E := sample_engine) sample_pool
                    (anonymous "" [("name", JStr "Carol"); ("email", JStr "c@x.com");
                                   ("department", JStr "Eng")]))).
Proof.
  apply (get_after_post_returns_created_row (E := sample_engine) sample_pool);
    reflexivity.
Defined.



(** ** Refusals *)



(** ** The session variant: who is answered what *)

(** Holding role [R]: authenticated, with an attached row whose [role] is
    the string [R]. *)
Lemma role_check_true (req : Request) (R : string) :
  isAuthenticated req && AuthServer.user_has_role req R = true <->
  isAuthenticated req = true /\
  exists u, user req = Some u /\ prop "role" u = JStr R.
Proof.
  unfold AuthServer.user_has_role. rewrite andb_true_iff. split.
  - intros [Ha Hr]. split; [exact Ha|].
    destruct (user req) as [u|]; [|discriminate].
    exists u. split; [reflexivity | apply strict_eq_str_true; exact Hr].
  - intros [Ha [u [Hu Hr]]]. split; [exact Ha|].
    rewrite Hu. apply strict_eq_str_true. exact Hr.
Qed.

(** X11. [GET /employees] of the session variant is for admins only: every
    requester who is not an authenticated admin, a manager included, is
    answered 403 before any query; an admin gets all rows, or the 500 of a
    failed query. *)
Theorem list_employees_admin_only {E : Externals} (p : Pool) (req : Request) :
  (AuthServer.get_employees p req = (p, AuthServer.Sent (send 403 "Forbidden")) <->
     ~ (isAuthenticated req = true /\
        exists u, user req = Some u /\ prop "role" u = JStr "admin"))
  /\ (forall u, user req = Some u -> prop "role" u = JStr "manager" ->
        AuthServer.get_employees p req = (p, AuthServer.Sent (send 403 "Forbidden")))
  /\ (isAuthenticated req = true ->
      (exists u, user req = Some u /\ prop "role" u = JStr "admin") ->
      AuthServer.get_employees p req
      = (p, AuthServer.Sent
              (if throws p SelectAll
               then json 500 (error_body "Failed to fetch employees")
               else json 200 (JArr (map JObj (table p)))))).
Proof.
  unfold AuthServer.get_employees, AuthServer.guarded, AuthServer.checkRole, query.
  pose proof (role_check_true req "admin") as Hrole.
  destruct (isAuthenticated req && AuthServer.user_has_role req "admin") eqn:Hc.
  - assert (Hadm : isAuthenticated req = true /\
                   exists u, user req = Some u /\ prop "role" u = JStr "admin")
      by (apply Hrole; reflexivity).
    repeat apply conj.
    + destruct (throws p SelectAll); intros H; inversion H.
    + intros Hn. now elim Hn.
    + intros u Hu Hm. destruct Hadm as [_ [u' [Hu' Ha]]].
      rewrite Hu in Hu'. injection Hu' as <-. rewrite Hm in Ha. discriminate.
    + intros _ _. destruct (throws p SelectAll); reflexivity.
  - repeat apply conj.
    + intros _ Hadm. apply Hrole in Hadm. discriminate.
    + reflexivity.
    + reflexivity.
    + intros Ha Hu. assert (H : false = true) by (apply Hrole; split; assumption).
      discriminate.
Qed.

(** X11 on the sample table: a manager is refused the list. *)
Lemma list_employees_admin_only_witness :
  AuthServer.get_employees (E := sample_engine) sample_pool
    (logged_in [("id", JNum 5); ("employee_id", JNum 5); ("role", JStr "manager")] "" [])
  = (sample_pool, AuthServer.Sent (send 403 "Forbidden")).
Proof.
  apply (proj1 (proj2 (list_employees_admin_only (E := sample_engine) sample_pool
                         (logged_in [("id", JNum 5); ("employee_id", JNum 5);
                                     ("role", JStr "manager")] "" [])))
           [("id", JNum 5); ("employee_id", JNum 5); ("role", JStr "manager")]);
    reflexivity.
Defined.

(** X12. For an id some row has and an answered query, the session variant
    of [GET /employees/:id] returns the row exactly to an authenticated
    requester who is admin, manager, or whose own [employee_id] is that id;
    everybody else is answered 403. *)
Theorem get_employee_authorized_iff {E : Externals}
    (p : Pool) (req : Request) (id : Z) (r : Row) (rest : list Row) :
  parseInt (params_id req) = Some id ->
  throws p (SelectById (JNum id)) = false ->
  filter (matches "id" (JNum id)) (table p) = r :: rest ->
  (snd (AuthServer.get_employees_id p req) = AuthServer.Sent (json 200 (JObj r)) <->
     isAuthenticated req = true /\
     exists u, user req = Some u /\
       (prop "role" u = JStr "admin" \/ prop "role" u = JStr "manager" \/
        prop "employee_id" u = JNum id))
  /\ (snd (AuthServer.get_employees_id p req) = AuthServer.Sent (json 200 (JObj r)) \/
      snd (AuthServer.get_employees_id p req) = AuthServer.Sent (send 403 "Forbidden")).
Proof.
  intros Hid Hok Hrows. unfold AuthServer.get_employees_id, query.
  rewrite Hid, Hok. cbn [run]. rewrite Hrows.
  assert (Hread : AuthServer.may_read req id = true <->
            isAuthenticated req = true /\
            exists u, user req = Some u /\
              (prop "role" u = JStr "admin" \/ prop "role" u = JStr "manager" \/
               prop "employee_id" u = JNum id)).
  { unfold AuthServer.may_read, AuthServer.user_has_role.
    destruct (isAuthenticated req); cbn [andb orb].
    - destruct (user req) as [u|]; cbn [orb].
      + rewrite !orb_true_iff, !strict_eq_str_true, strict_eq_num_true. split.
        * intros H. split; [reflexivity|]. exists u. split; [reflexivity | tauto].
        * intros [_ [u' [Hu H]]]. injection Hu as <-. tauto.
      + split; [discriminate|]. intros [_ [u [Hu _]]]. discriminate.
    - split; [discriminate|]. intros [H _]. discriminate. }
  destruct (AuthServer.may_read req id); cbn [snd]; split.
  - split; [intros _; apply Hread; reflexivity | reflexivity].
  - left. reflexivity.
  - split; [intros H; inversion H|].
    intros H. apply Hread in H. discriminate.
  - right. reflexivity.
Qed.

(** X12 on the sample table: Bob, a plain employee, reads his own row and
    is refused Alice's. *)
Lemma get_employee_authorized_iff_witness :
  snd (AuthServer.get_employees_id (E := sample_engine) sample_pool
         (logged_in bob "2" []))
  = AuthServer.Sent (json 200 (JObj bob))
  /\ snd (AuthServer.get_employees_id (E := sample_engine) sample_pool
            (logged_in bob "1" []))
     <> AuthServer.Sent (json 200 (JObj alice)).
Proof.
  split.
  - apply (proj1 (get_employee_authorized_iff (E := sample_engine) sample_pool
                    (logged_in bob "2" []) 2 bob [] eq_refl eq_refl eq_refl)).
    split; [reflexivity|]. exists bob. split; [reflexivity|].
    right. right. reflexivity.
  - intros H.
    apply (proj1 (get_employee_authorized_iff (E := sample_engine) sample_pool
                    (logged_in bob "1" []) 1 alice [] eq_refl eq_refl eq_refl)) in H.
    destruct H as [_ [u [Hu [H|[H|H]]]]]; injection Hu as <-; discriminate.
Defined.

(** ** Password reset: refusals and effect *)

(** X13. [POST /reset-password] from anyone who is not an authenticated
    admin is answered 403 whatever the body holds, and nothing is hashed or
    written. *)
Theorem reset_password_refused_without_admin {E : Externals} (p : Pool) (req : Request) :
  ~ (isAuthenticated req = true /\
     exists u, user req = Some u /\ prop "role" u = JStr "admin") ->
  AuthServer.post_reset_password p req = (p, AuthServer.Sent (send 403 "Forbidden")).
Proof.
  intros Hno.
  unfold AuthServer.post_reset_password, AuthServer.guarded, AuthServer.checkRole.
  destruct (isAuthenticated req && AuthServer.user_has_role req "admin") eqn:Hc;
    [|reflexivity].
  elim Hno. apply role_check_true. exact Hc.
Qed.

(** X13 on the sample table: Bob, an employee, asks for Alice's password to
    be reset. *)
Lemma reset_password_refused_without_admin_witness :
  AuthServer.post_reset_password (E := sample_engine) sample_pool
    (logged_in bob "" [("employeeId", JNum 1); ("newPassword", JStr "mine")])
  = (sample_pool, AuthServer.Sent (send 403 "Forbidden")).
Proof.
  apply (reset_password_refused_without_admin (E := sample_engine)).
  intros [_ [u [Hu Hrole]]]. injection Hu as <-. discriminate.
Defined.

(** X14. An admin's [POST /reset-password] whose [newPassword] is not a
    string (absent, null, a number, ...) is answered 500 and writes
    nothing. *)
Theorem reset_password_needs_string {E : Externals}
    (p : Pool) (req : Request) (u : Row) :
  isAuthenticated req = true ->
  user req = Some u ->
  prop "role" u = JStr "admin" ->
  (forall pw, prop "newPassword" (body req) <> JStr pw) ->
  AuthServer.post_reset_password p req
  = (p, AuthServer.Sent (json 500 (error_body "Failed to reset password"))).
Proof.
  intros Ha Hu Hrole Hpw.
  unfold AuthServer.post_reset_password, AuthServer.guarded, AuthServer.checkRole.
  rewrite (proj2 (role_check_true req "admin"))
    by (split; [exact Ha | exists u; split; assumption]).
  unfold AuthServer.hash_password.
  destruct (prop "newPassword" (body req)) as [| | | |s| |]; try reflexivity.
  now elim (Hpw s).
Qed.

(** X14 on the sample table: the body names an employee and no password. *)
Lemma reset_password_needs_string_witness :
  AuthServer.post_reset_password (E := sample_engine) sample_pool
    (logged_in alice "" [("employeeId", JNum 2)])
  = (sample_pool, AuthServer.Sent (json 500 (error_body "Failed to reset password"))).
Proof.
  apply (reset_password_needs_string (E := sample_engine) sample_pool _ alice);
    try reflexivity.
  intros pw. discriminate.
Defined.

(** X15. After an admin's accepted password reset, a permitted
    [GET /employees/:id] of the session variant for an id some row has
    returns that row with the new digest as [password] and every other
    column as before when the reset addressed the row, and returns it
    unchanged when it did not. *)
Theorem get_after_reset_shows_new_digest {E : Externals}
    (p : Pool) (reset get : Request) (u : Row) (pw : string)
    (id : Z) (r0 : Row) (rest : list Row) :
  isAuthenticated reset = true ->
  user reset = Some u ->
  prop "role" u = JStr "admin" ->
  prop "newPassword" (body reset) = JStr pw ->
  throws p (UpdatePassword (JStr (bcrypt_hash pw 10))
              (prop "employeeId" (body reset))) = false ->
  parseInt (params_id get) = Some id ->
  AuthServer.may_read get id = true ->
  throws (fst (AuthServer.post_reset_password p reset)) (SelectById (JNum id)) = false ->
  filter (matches "id" (JNum id)) (table p) = r0 :: rest ->
  exists r,
    snd (AuthServer.get_employees_id (fst (AuthServer.post_reset_password p reset)) get)
    = AuthServer.Sent (json 200 (JObj r))
    /\ (matches "employee_id" (prop "employeeId" (body reset)) r0 = true ->
        prop "password" r = JStr (bcrypt_hash pw 10) /\
        forall k, String.eqb k "password" = false -> prop k r = prop k r0)
    /\ (matches "employee_id" (prop "employeeId" (body reset)) r0 = false -> r = r0).
Proof.
  intros Ha Hu Hrole Hpw Hok Hid Hread.
  assert (Hreset :
    AuthServer.post_reset_password p reset
    = (with_table p
         (map (fun r =>
                 if matches "employee_id" (prop "employeeId" (body reset)) r
                 then set_prop "password" (JStr (bcrypt_hash pw 10)) r else r)
            (table p)),
       AuthServer.Sent (json 200 (message_body "Password reset successfully")))).
  { unfold AuthServer.post_reset_password, AuthServer.guarded, AuthServer.checkRole.
    rewrite (proj2 (role_check_true reset "admin"))
      by (split; [exact Ha | exists u; split; assumption]).
    rewrite Hpw. cbn [AuthServer.hash_password]. unfold query. rewrite Hok.
    reflexivity. }
  rewrite Hreset. cbn [fst]. intros Hsel Hrows.
  unfold AuthServer.get_employees_id, query. rewrite Hid.
  cbn [with_table throws] in Hsel |- *. rewrite Hsel.
  cbn [run table with_table]. rewrite filter_map_stable.
  - rewrite Hrows. cbn [map]. rewrite Hread. cbn [snd].
    eexists. split; [reflexivity|]. split; intros Hm; rewrite Hm.
    + split; [apply prop_set_prop_same|].
      intros k Hk. apply prop_set_prop_other. exact Hk.
    + reflexivity.
  - intros x. destruct (matches "employee_id" _ x); [|reflexivity].
    apply matches_id_set_password.
Qed.

(** X15 on the sample table: Alice resets Bob's password and reads his
    row. *)
Lemma get_after_reset_shows_new_digest_witness :
  exists r,
    snd (AuthServer.get_employees_id (E := sample_engine)
           (fst (AuthServer.post_reset_password (E := sample_engine) sample_pool
                   (logged_in alice "" [("employeeId", JNum 2);
                                        ("newPassword", JStr "s3cret")])))
           (logged_in alice "2" []))
    = AuthServer.Sent (json 200 (JObj r))
    /\ prop "password" r = JStr "$2b$10$s3cret"
    /\ prop "name" r = JStr "Bob".
Proof.
  destruct (get_after_reset_shows_new_digest (E := sample_engine) sample_pool
              (logged_in alice "" [("employeeId", JNum 2); ("newPassword", JStr "s3cret")])
              (logged_in alice "2" []) alice "s3cret" 2 bob [])
    as (r & Hr & Hhit & _); try reflexivity.
  destruct (Hhit eq_refl) as [Hpw Hk].
  exists r. split; [exact Hr|]. split; [exact Hpw|].
  rewrite (Hk "name"); reflexivity.
Defined.

(** ** Login and session *)



(** X17. [deserializeUser] reports a row only if the table holds it and its
    [employee_id] is the stored value; it reports an error exactly when the
    query throws or no row has that [employee_id]. *)
Theorem deserializeUser_finds_matching_row {E : Externals} (p : Pool) (eid : JsVal) :
  (forall r, AuthServer.deserializeUser p eid = Some r ->
     In r (table p) /\ matches "employee_id" eid r = true)
  /\ (AuthServer.deserializeUser p eid = None <->
      throws p (SelectByEmployeeId eid) = true \/
      filter (matches "employee_id" eid) (table p) = []).
Proof.
  unfold AuthServer.deserializeUser, query.
  destruct (throws p (SelectByEmployeeId eid)).
  - split; [discriminate|]. split; [left; reflexivity | reflexivity].
  - cbn [run]. destruct (filter _ (table p)) as [|x rest] eqn:Hrows.
    + split; [discriminate|]. split; [right; reflexivity | reflexivity].
    + split.
      * intros r H. injection H as <-.
        assert (Hin : In x (filter (matches "employee_id" eid) (table p)))
          by (rewrite Hrows; left; reflexivity).
        apply filter_In in Hin. exact Hin.
      * split; [discriminate|]. intros [H|H]; discriminate.
Qed.

(** X17 on the sample table: the stored value 2 gives Bob, the stored value
    9 an error. *)
Lemma deserializeUser_finds_matching_row_witness :
  In bob (table sample_pool)
  /\ AuthServer.deserializeUser (E := sample_engine) sample_pool (JNum 9) = None.
Proof.
  destruct (deserializeUser_finds_matching_row (E := sample_engine) sample_pool (JNum 2))
    as [Hsome _].
  destruct (deserializeUser_finds_matching_row (E := sample_engine) sample_pool (JNum 9))
    as [_ Hnone].
  split.
  - exact (proj1 (Hsome bob eq_refl)).
  - apply Hnone. right. reflexivity.
Defined.

(** X18. Session round trip: for a stored employee whose [employee_id] no
    other row shares, what [serializeUser] puts into the session brings the
    same row back through [deserializeUser], provided the engine finds the
    value equal to itself and answers the query. *)
Theorem session_round_trip {E : Externals} (p : Pool) (u : Row) :
  In u (table p) ->
  sql_eq (prop "employee_id" u) (prop "employee_id" u) = true ->
  (forall r, In r (table p) ->
     matches "employee_id" (AuthServer.serializeUser u) r = true -> r = u) ->
  throws p (SelectByEmployeeId (AuthServer.serializeUser u)) = false ->
  AuthServer.deserializeUser p (AuthServer.serializeUser u) = Some u.
Proof.
  intros Hin Hrefl Huniq Hok. unfold AuthServer.deserializeUser, query.
  rewrite Hok. cbn [run].
  destruct (filter_unique_head (matches "employee_id" (AuthServer.serializeUser u))
              (table p) u Hin Hrefl Huniq) as [rest Hrows].
  rewrite Hrows. reflexivity.
Qed.

(** X18 on the sample table: Bob's session brings Bob back. *)
Lemma session_round_trip_witness :
  AuthServer.deserializeUser (E := sample_engine) sample_pool
    (AuthServer.serializeUser bob) = Some bob.
Proof.
  apply (session_round_trip (E := sample_engine) sample_pool bob).
  - right. left. reflexivity.
  - reflexivity.
  - intros r [<-|[<-|[]]]; cbn; [discriminate | reflexivity].
  - reflexivity.
Defined.

(** ** Ids written in decimal *)








(** X20. A [PUT] answered 200 touches only the rows that have the id: every
    other row of the table is still there, unchanged, and every row of the
    new table is an old row or the update of an old row with that id. *)
Theorem put_leaves_other_rows {E : Externals} (p : Pool) (req : Request) (id : Z) :
  parseInt (params_id req) = Some id ->
  status (snd (Server.put_employees_id p req)) = 200 ->
  (forall r, In r (table p) -> matches "id" (JNum id) r = false ->
     In r (table (fst (Server.put_employees_id p req))))
  /\ (forall r', In r' (table (fst (Server.put_employees_id p req))) ->
        In r' (table p) \/
        exists r, In r (table p) /\ matches "id" (JNum id) r = true /\
          r' = set_employee (prop "name" (body req)) (prop "email" (body req))
                 (prop "department" (body req)) r).
Proof.
  intros Hid. unfold Server.put_employees_id, query. rewrite Hid.
  destruct (Server.missing_fields _ _ _); [discriminate|].
  destruct (throws p _); [discriminate|]. cbn [run].
  destruct (map _ (filter _ (table p))) as [|r1 rs]; [discriminate|].
  cbn [fst snd with_table table]. intros _. split.
  - intros r Hin Hno. apply in_map_iff. exists r. rewrite Hno. split; [reflexivity | exact Hin].
  - intros r' Hin. apply in_map_iff in Hin. destruct Hin as [r [Hr Hin]].
    destruct (matches "id" (JNum id) r) eqn:Hm.
    + right. exists r. split; [exact Hin|]. split; [exact Hm | symmetry; exact Hr].
    + left. subst r'. exact Hin.
Qed.

(** X20 on the sample table: Alice's row survives an update of Bob. *)
Lemma put_leaves_other_rows_witness :
  In alice (table (fst (Server.put_employees_id (E := sample_engine) sample_pool
                          (anonymous "2" [("name", JStr "Robert");
                                          ("email", JStr "b@x.com");
                                          ("department", JStr "Ops")])))).
Proof.
  apply (proj1 (put_leaves_other_rows (E := sample_engine) sample_pool
                  (anonymous "2" [("name", JStr "Robert"); ("email", JStr "b@x.com");
                                  ("department", JStr "Ops")]) 2 eq_refl eq_refl));
    [left; reflexivity | reflexivity].
Defined.
